(** * Verification of [test-eventhub.py]

    The script builds one order record, serialises it with [json.dumps],
    wraps the text in an [EventData], puts it in a batch obtained from an
    [EventHubProducerClient] and sends the batch inside an [async with]
    block, printing two banners afterwards.

    The script is a dozen calls into libraries it does not define, so the
    development models two kinds of things.  What the libraries compute on
    Python values is modelled as functions, after CPython's [json] module
    and [float.__repr__]: the JSON text of the record is computed, not
    assumed.  What the outside world decides (whether the client accepts
    the connection string, whether the hub is reachable, whether the
    console takes a line) is a parameter, a [World], and every property is
    proved for all worlds or under a stated condition on the world.

    - [PyStr]: Python [str] as a sequence of Unicode code points, and its
      UTF-8 encoding;
    - [PyFloat]: Python [float] as IEEE-754 binary64 ([spec_float]), with
      the correctly rounded reading of a decimal numeral and [repr];
    - [Json]: the values [json.dumps] accepts, [json.dumps] and
      [json.loads];
    - [EventHub]: the calls the script makes, the log of calls, and the
      [World] that answers them;
    - the script itself, [send_test_message] and [main], written in a
      small log-and-exception monad;
    - the properties. *)

From Stdlib Require Import ZArith NArith PArith List Bool String Ascii Lia.
From Stdlib Require Import SpecFloat.
Import ListNotations.

#[local] Set Warnings "-register-all".

Local Open Scope Z_scope.

(* ===================================================================== *)
(** * Python strings *)
(* ===================================================================== *)

Module PyStr.

(** A Python [str] is a sequence of Unicode code points. *)
Definition codepoint := N.
Definition pystr := list codepoint.

Fixpoint str (s : string) : pystr :=
  match s with
  | EmptyString => []
  | String a r => N_of_ascii a :: str r
  end.

Definition pystr_eqb (a b : pystr) : bool :=
  if list_eq_dec N.eq_dec a b then true else false.

(** [s.removeprefix(p)], as an option: [None] when [p] is no prefix. *)
Fixpoint strip_prefix (p s : pystr) : option pystr :=
  match p, s with
  | [], _ => Some s
  | a :: p', b :: s' => if N.eqb a b then strip_prefix p' s' else None
  | _ :: _, [] => None
  end.

Definition is_surrogate (c : codepoint) : bool :=
  (N.leb 55296 c && N.leb c 57343)%N.

(** [str.encode("utf-8")]: [None] stands for [UnicodeEncodeError]
    (a lone surrogate, which UTF-8 cannot carry). *)
Definition utf8_encode_char (c : codepoint) : option (list N) :=
  (if c <? 128 then Some [c]
   else if c <? 2048 then
     Some [192 + c / 64; 128 + c mod 64]
   else if is_surrogate c then None
   else if c <? 65536 then
     Some [224 + c / 4096; 128 + (c / 64) mod 64; 128 + c mod 64]
   else if c <? 1114112 then
     Some [240 + c / 262144; 128 + (c / 4096) mod 64;
           128 + (c / 64) mod 64; 128 + c mod 64]
   else None)%N.

Fixpoint utf8_encode (s : pystr) : option (list N) :=
  match s with
  | [] => Some []
  | c :: r =>
      match utf8_encode_char c, utf8_encode r with
      | Some b, Some br => Some (b ++ br)
      | _, _ => None
      end
  end.

Definition is_cont (b : N) : bool := (N.leb 128 b && N.ltb b 192)%N.

(** [bytes.decode("utf-8")] (strict): over-long forms, surrogates and
    values past U+10FFFF are refused. *)
Fixpoint utf8_decode_fuel (fuel : nat) (bs : list N) : option pystr :=
  match fuel with
  | O => match bs with [] => Some [] | _ => None end
  | S fuel' =>
      match bs with
      | [] => Some []
      | b0 :: r0 =>
          (if b0 <? 128 then
             option_map (cons b0) (utf8_decode_fuel fuel' r0)
           else if (192 <=? b0) && (b0 <? 224) then
             match r0 with
             | b1 :: r1 =>
                 let c := (b0 - 192) * 64 + (b1 - 128) in
                 if is_cont b1 && (128 <=? c)
                 then option_map (cons c) (utf8_decode_fuel fuel' r1)
                 else None
             | _ => None
             end
           else if (224 <=? b0) && (b0 <? 240) then
             match r0 with
             | b1 :: b2 :: r2 =>
                 let c := (b0 - 224) * 4096 + (b1 - 128) * 64 + (b2 - 128) in
                 if is_cont b1 && is_cont b2 && (2048 <=? c)
                    && negb (is_surrogate c)
                 then option_map (cons c) (utf8_decode_fuel fuel' r2)
                 else None
             | _ => None
             end
           else if (240 <=? b0) && (b0 <? 248) then
             match r0 with
             | b1 :: b2 :: b3 :: r3 =>
                 let c := (b0 - 240) * 262144 + (b1 - 128) * 4096
                          + (b2 - 128) * 64 + (b3 - 128) in
                 if is_cont b1 && is_cont b2 && is_cont b3
                    && (65536 <=? c) && (c <? 1114112)
                 then option_map (cons c) (utf8_decode_fuel fuel' r3)
                 else None
             | _ => None
             end
           else None)%N
      end
  end.

Definition utf8_decode (bs : list N) : option pystr :=
  utf8_decode_fuel (List.length bs) bs.

Definition is_ascii (s : pystr) : bool := forallb (fun c => N.ltb c 128) s.

(** Decimal digits of a natural number, most significant first. *)
Fixpoint digits_fuel (fuel : nat) (n : N) (acc : pystr) : pystr :=
  match fuel with
  | O => acc
  | S fuel' =>
      let acc' := (48 + n mod 10)%N :: acc in
      if (n <? 10)%N then acc' else digits_fuel fuel' (n / 10)%N acc'
  end.

Definition digits_of_N (n : N) : pystr :=
  digits_fuel (S (N.to_nat (N.log2 n))) n [].

(** [str(z)] for a Python [int]. *)
Definition str_of_Z (z : Z) : pystr :=
  match z with
  | Z0 => [48%N]
  | Zpos p => digits_of_N (Npos p)
  | Zneg p => 45%N :: digits_of_N (Npos p)
  end.

Definition is_digit (c : codepoint) : bool := (N.leb 48 c && N.leb c 57)%N.

(** Value of a run of decimal digits. *)
Definition N_of_digits (ds : pystr) : N :=
  fold_left (fun acc c => (10 * acc + (c - 48))%N) ds 0%N.

End PyStr.

Import PyStr.

(* ===================================================================== *)
(** * Python floats *)
(* ===================================================================== *)

Module PyFloat.

(** A Python [float] is an IEEE-754 binary64 number. *)
Definition prec : Z := 53.
Definition emax : Z := 1024.
Definition float := spec_float.

Definition float_eqb (x y : float) : bool :=
  match x, y with
  | S754_zero a, S754_zero b => Bool.eqb a b
  | S754_infinity a, S754_infinity b => Bool.eqb a b
  | S754_nan, S754_nan => true
  | S754_finite a m e, S754_finite b n f =>
      Bool.eqb a b && Pos.eqb m n && Z.eqb e f
  | _, _ => false
  end.

(** The binary64 number nearest to [n / d] (ties to even). *)
Definition of_ratio (s : bool) (n d : positive) : float :=
  let '(q, e, l) := SFdiv_core_binary prec emax (Zpos n) 0 (Zpos d) 0 in
  binary_round_aux prec emax s q e l.

(** The binary64 number nearest to [(-1)^s * c * 10^e10]: what the
    Python compiler and [float(text)] compute for a decimal numeral. *)
Definition of_decimal (s : bool) (c : N) (e10 : Z) : float :=
  match c with
  | N0 => S754_zero s
  | Npos p =>
      match e10 with
      | Z0 => binary_round prec emax s p 0
      | Zpos k => binary_round prec emax s (p * Pos.pow 10 k) 0
      | Zneg k => of_ratio s p (Pos.pow 10 k)
      end
  end.

Definition span_digits (s : pystr) : pystr * pystr :=
  (fix go (s : pystr) : pystr * pystr :=
     match s with
     | c :: r => if is_digit c then let '(ds, t) := go r in (c :: ds, t)
                 else ([], s)
     | [] => ([], [])
     end) s.

Definition take_sign (s : pystr) : bool * pystr :=
  match s with
  | 45%N :: r => (true, r)
  | 43%N :: r => (false, r)
  | _ => (false, s)
  end.

(** [float(text)] on a decimal numeral
    [[sign] digits [. digits] [(e|E) [sign] digits]]; [None] stands for
    [ValueError]. *)
Definition of_str (t : pystr) : option float :=
  let '(sg, t1) := take_sign t in
  let '(ip, t2) := span_digits t1 in
  let '(fp, t3) :=
    match t2 with
    | 46%N :: r => span_digits r
    | _ => ([], t2)
    end in
  match ip ++ fp with
  | [] => None
  | ds =>
      let mant := N_of_digits ds in
      let fl := Z.of_nat (List.length fp) in
      match t3 with
      | [] => Some (of_decimal sg mant (- fl))
      | c :: r =>
          if N.eqb c 101 || N.eqb c 69 then
            let '(es, r1) := take_sign r in
            match span_digits r1 with
            | ((_ :: _) as eds, []) =>
                let ev := Z.of_N (N_of_digits eds) in
                Some (of_decimal sg mant ((if es then - ev else ev) - fl))
            | _ => None
            end
          else None
      end
  end.

(** A float literal of the source text, such as [99.99]. *)
Definition lit (s : string) : float :=
  match of_str (str s) with
  | Some f => f
  | None => S754_nan
  end.

(** ** [repr] *)

Definition ndigits10 (n : Z) : Z :=
  Z.of_nat (List.length (digits_of_N (Z.to_N n))).

Definition pow10 (k : Z) : Z := 10 ^ k.

(** A positive finite float [m * 2^e] as a fraction. *)
Definition ratio_of (m : positive) (e : Z) : Z * Z :=
  match e with
  | Zneg k => (Zpos m, Zpos (Pos.pow 2 k))
  | _ => (Zpos m * 2 ^ e, 1)
  end.

(** The [k] with [10^(k-1) <= num/den < 10^k]. *)
Definition decpt_of (num den : Z) : Z :=
  let k0 := ndigits10 num - ndigits10 den in
  let ge :=
    if 0 <=? k0 then den * pow10 k0 <=? num
    else den <=? num * pow10 (- k0) in
  if ge then k0 + 1 else k0.

Fixpoint strip_trailing_zeros_rev (r : pystr) : pystr :=
  match r with
  | 48%N :: r' => strip_trailing_zeros_rev r'
  | _ => r
  end.

Definition strip_trailing_zeros (ds : pystr) : pystr :=
  match rev (strip_trailing_zeros_rev (rev ds)) with
  | [] => [48%N]
  | r => r
  end.

(** The [d]-digit decimals just below and just above [x = num/den],
    nearest first, each as [(c, p)] standing for [c * 10^(-p)]. *)
Definition candidates (num den k : Z) (d : Z) : list (Z * Z) :=
  let p := d - k in
  let yn := if 0 <=? p then num * pow10 p else num in
  let yd := if 0 <=? p then den else den * pow10 (- p) in
  let lo := yn / yd in
  let r := yn - lo * yd in
  match 2 * r ?= yd with
  | Lt => [(lo, p); (lo + 1, p)]
  | Gt => [(lo + 1, p); (lo, p)]
  | Eq => if Z.even lo then [(lo, p); (lo + 1, p)] else [(lo + 1, p); (lo, p)]
  end.

Definition round_trips (x : float) (cp : Z * Z) : bool :=
  float_eqb (of_decimal false (Z.to_N (fst cp)) (- snd cp)) x.

(** Shortest digit string that reads back as [x], with its decimal
    point position: the digits [ds] and [decpt] stand for
    [0.ds * 10^decpt]. *)
Fixpoint shortest_from (fuel : nat) (x : float) (num den k : Z) (d : Z)
  : pystr * Z :=
  match fuel with
  | O => ([48%N], 1)
  | S fuel' =>
      match filter (round_trips x) (candidates num den k d) with
      | (c, p) :: _ =>
          (strip_trailing_zeros (digits_of_N (Z.to_N c)),
           ndigits10 c - p)
      | [] => shortest_from fuel' x num den k (d + 1)
      end
  end.

Definition shortest_digits (m : positive) (e : Z) : pystr * Z :=
  let '(num, den) := ratio_of m e in
  shortest_from 17 (S754_finite false m e) num den (decpt_of num den) 1.

Definition zeros (n : Z) : pystr := repeat 48%N (Z.to_nat n).

Definition two_digit_exp (ex : Z) : pystr :=
  let a := digits_of_N (Z.to_N (Z.abs ex)) in
  (if ex <? 0 then 45%N else 43%N)
    :: (if Z.abs ex <? 10 then 48%N :: a else a).

(** Layout of [repr]: exponent notation when [decpt <= -4] or
    [decpt > 16], positional notation otherwise, with [.0] added to a
    numeral that would read as an integer. *)
Definition layout (ds : pystr) (decpt : Z) : pystr :=
  let n := Z.of_nat (List.length ds) in
  if (decpt <=? -4) || (16 <? decpt) then
    match ds with
    | [] => []
    | d0 :: [] => d0 :: 101%N :: two_digit_exp (decpt - 1)
    | d0 :: r => d0 :: 46%N :: r ++ 101%N :: two_digit_exp (decpt - 1)
    end
  else if decpt <=? 0 then
    str "0." ++ zeros (- decpt) ++ ds
  else if n <=? decpt then
    ds ++ zeros (decpt - n) ++ str ".0"
  else
    firstn (Z.to_nat decpt) ds ++ 46%N :: skipn (Z.to_nat decpt) ds.

(** [repr(x)] for a float. *)
Definition repr (x : float) : pystr :=
  match x with
  | S754_nan => str "nan"
  | S754_infinity s => if s then str "-inf" else str "inf"
  | S754_zero s => if s then str "-0.0" else str "0.0"
  | S754_finite s m e =>
      let '(ds, decpt) := shortest_digits m e in
      (if s then [45%N] else []) ++ layout ds decpt
  end.

End PyFloat.

(* ===================================================================== *)
(** * JSON *)
(* ===================================================================== *)

Module Json.

(** The Python values [json.dumps] accepts.  A [dict] keeps its keys in
    insertion order, so it is an association list. *)
Inductive pyval : Type :=
| PNone
| PBool (b : bool)
| PInt (z : Z)
| PFloat (x : PyFloat.float)
| PStr (s : pystr)
| PList (l : list pyval)
| PDict (d : list (pystr * pyval)).

(** ** Dictionaries *)

Fixpoint dict_get (k : pystr) (d : list (pystr * pyval)) : option pyval :=
  match d with
  | [] => None
  | (k', v) :: r => if pystr_eqb k k' then Some v else dict_get k r
  end.

(** [d[k] = v]: an existing key keeps its place. *)
Fixpoint dict_set (k : pystr) (v : pyval) (d : list (pystr * pyval))
  : list (pystr * pyval) :=
  match d with
  | [] => [(k, v)]
  | (k', v') :: r =>
      if pystr_eqb k k' then (k', v) :: r else (k', v') :: dict_set k v r
  end.

(** [dict(pairs)] *)
Definition dict_of_pairs (ps : list (pystr * pyval)) : list (pystr * pyval) :=
  fold_left (fun d kv => dict_set (fst kv) (snd kv) d) ps [].

Definition keys (d : list (pystr * pyval)) : list pystr := map fst d.

(** ** [json.dumps] *)

Definition hex_digit (n : N) : N :=
  (if n <? 10 then 48 + n else 87 + n)%N.

Definition backslash : N := 92.
Definition dquote : N := 34.

(** A backslash, [u] and four lower-case hexadecimal digits. *)
Definition u_escape (n : N) : pystr :=
  (backslash :: 117
     :: [hex_digit ((n / 4096) mod 16); hex_digit ((n / 256) mod 16);
         hex_digit ((n / 16) mod 16); hex_digit (n mod 16)])%N.

(** One character of a string under [ensure_ascii=True]: the quote, the
    backslash and the five named control characters have two-character
    escapes, printable ASCII stands for itself, and everything else is
    written with [u_escape] (as a surrogate pair past U+FFFF). *)
Definition escape_char (c : N) : pystr :=
  (if c =? dquote then [backslash; dquote]
   else if c =? backslash then [backslash; backslash]
   else if c =? 10 then backslash :: str "n"
   else if c =? 13 then backslash :: str "r"
   else if c =? 9 then backslash :: str "t"
   else if c =? 8 then backslash :: str "b"
   else if c =? 12 then backslash :: str "f"
   else if (32 <=? c) && (c <=? 126) then [c]
   else if c <? 65536 then u_escape c
   else
     let n := c - 65536 in
     u_escape (55296 + (n / 1024) mod 1024) ++ u_escape (56320 + n mod 1024))%N.

Definition encode_basestring_ascii (s : pystr) : pystr :=
  dquote :: flat_map escape_char s ++ [dquote].

Definition floatstr (x : PyFloat.float) : pystr :=
  match x with
  | S754_nan => str "NaN"
  | S754_infinity false => str "Infinity"
  | S754_infinity true => str "-Infinity"
  | _ => PyFloat.repr x
  end.

Definition newline_indent (indent : option nat) (level : nat) : pystr :=
  match indent with
  | None => []
  | Some n => 10%N :: repeat 32%N (n * level)
  end.

Definition item_separator (indent : option nat) (level : nat) : pystr :=
  match indent with
  | None => str ", "
  | Some _ => 44%N :: newline_indent indent level
  end.

Definition key_separator : pystr := str ": ".

(** Join already encoded items the way [_iterencode_list] and
    [_iterencode_dict] do, between [open] and [close]. *)
Definition bracket (indent : option nat) (level : nat) (opening closing : N)
  (items : list pystr) : pystr :=
  match items with
  | [] => [opening; closing]
  | i0 :: rest =>
      opening :: newline_indent indent (S level) ++ i0
        ++ flat_map (fun i => item_separator indent (S level) ++ i) rest
        ++ newline_indent indent level ++ [closing]
  end.

Fixpoint iterencode (indent : option nat) (level : nat) (v : pyval)
  : pystr :=
  match v with
  | PNone => str "null"
  | PBool true => str "true"
  | PBool false => str "false"
  | PInt z => str_of_Z z
  | PFloat x => floatstr x
  | PStr s => encode_basestring_ascii s
  | PList l =>
      bracket indent level 91%N 93%N
        (map (iterencode indent (S level)) l)
  | PDict d =>
      bracket indent level 123%N 125%N
        (map (fun kv => encode_basestring_ascii (fst kv) ++ key_separator
                        ++ iterencode indent (S level) (snd kv)) d)
  end.

(** [json.dumps(v)] when [indent] is [None], [json.dumps(v, indent=n)]
    when it is [Some n]. *)
Definition dumps (indent : option nat) (v : pyval) : pystr :=
  iterencode indent 0 v.

(** ** [json.loads]

    Every function takes the text still to be read and returns what it
    read with the text that is left; [None] stands for
    [JSONDecodeError]. *)

Definition is_ws (c : N) : bool :=
  (N.eqb c 32 || N.eqb c 9 || N.eqb c 10 || N.eqb c 13)%N.

Fixpoint skip_ws (s : pystr) : pystr :=
  match s with
  | c :: r => if is_ws c then skip_ws r else s
  | [] => []
  end.

Definition hex_value (c : N) : option N :=
  (if (48 <=? c) && (c <=? 57) then Some (c - 48)
   else if (97 <=? c) && (c <=? 102) then Some (c - 87)
   else if (65 <=? c) && (c <=? 70) then Some (c - 55)
   else None)%N.

(** The four hexadecimal digits after a backslash and [u]. *)
Definition decode_uXXXX (s : pystr) : option (N * pystr) :=
  match s with
  | a :: b :: c :: d :: r =>
      match hex_value a, hex_value b, hex_value c, hex_value d with
      | Some x, Some y, Some z, Some w =>
          Some ((x * 4096 + y * 256 + z * 16 + w)%N, r)
      | _, _, _, _ => None
      end
  | _ => None
  end.

(** [scanstring], strict, after the opening quote. *)
Fixpoint scanstring (fuel : nat) (s : pystr) : option (pystr * pystr) :=
  match fuel with
  | O => None
  | S fuel' =>
      match s with
      | [] => None
      | c :: r =>
          if N.eqb c dquote then Some ([], r)
          else if N.eqb c backslash then
            match r with
            | [] => None
            | e :: r1 =>
                let plain (x : N) :=
                  option_map (fun '(t, r2) => (x :: t, r2))
                             (scanstring fuel' r1) in
                (if e =? dquote then plain dquote
                 else if e =? backslash then plain backslash
                 else if e =? 47 then plain 47
                 else if e =? 98 then plain 8
                 else if e =? 102 then plain 12
                 else if e =? 110 then plain 10
                 else if e =? 114 then plain 13
                 else if e =? 116 then plain 9
                 else if e =? 117 then
                   match decode_uXXXX r1 with
                   | None => None
                   | Some (u, r2) =>
                       let single :=
                         option_map (fun '(t, r3) => (u :: t, r3))
                                    (scanstring fuel' r2) in
                       if (55296 <=? u) && (u <=? 56319) then
                         match r2 with
                         | b1 :: u1 :: r3 =>
                             if (b1 =? backslash) && (u1 =? 117) then
                               match decode_uXXXX r3 with
                               | Some (u2, r4) =>
                                   if (56320 <=? u2) && (u2 <=? 57343) then
                                     option_map
                                       (fun '(t, r5) =>
                                          (65536 + (u - 55296) * 1024
                                           + (u2 - 56320) :: t, r5))
                                       (scanstring fuel' r4)
                                   else single
                               | None => single
                               end
                             else single
                         | _ => single
                         end
                       else single
                   end
                 else None)%N
            end
          else if N.ltb c 32 then None
          else option_map (fun '(t, r1) => (c :: t, r1)) (scanstring fuel' r)
      end
  end.

(** [NUMBER_RE]: an integer part (an optional minus sign, then either a
    single zero or a non-zero digit followed by digits), an optional
    fraction (a point and at least one digit) and an optional exponent
    ([e] or [E], an optional sign, at least one digit).  Returns the
    three matched texts and the rest. *)
Definition match_number (s : pystr)
  : option (pystr * pystr * pystr * pystr) :=
  let '(sg, s1) :=
    match s with
    | 45%N :: r => ([45%N], r)
    | _ => ([], s)
    end in
  let ip :=
    match s1 with
    | 48%N :: r => Some ([48%N], r)
    | c :: _ =>
        if is_digit c then Some (PyFloat.span_digits s1) else None
    | [] => None
    end in
  match ip with
  | None => None
  | Some (ds, s2) =>
      let '(frac, s3) :=
        match s2 with
        | 46%N :: r =>
            match PyFloat.span_digits r with
            | ((_ :: _) as fd, r') => (46%N :: fd, r')
            | _ => ([], s2)
            end
        | _ => ([], s2)
        end in
      let '(ex, s4) :=
        match s3 with
        | c :: r =>
            if N.eqb c 101 || N.eqb c 69 then
              let '(sg', r1) :=
                match r with
                | 45%N :: r1 => ([45%N], r1)
                | 43%N :: r1 => ([43%N], r1)
                | _ => ([], r)
                end in
              match PyFloat.span_digits r1 with
              | ((_ :: _) as ed, r') => (c :: sg' ++ ed, r')
              | _ => ([], s3)
              end
            else ([], s3)
        | [] => ([], s3)
        end in
      Some (sg ++ ds, frac, ex, s4)
  end.

(** [int(text)] on the integer part matched by [match_number]. *)
Definition int_of_str (tx : pystr) : Z :=
  match tx with
  | 45%N :: ds => - Z.of_N (N_of_digits ds)
  | ds => Z.of_N (N_of_digits ds)
  end.

(** [scan_once], [JSONObject] and [JSONArray].  [members] and
    [elements] are the two [while True] loops, entered after the
    opening bracket and the white space behind it. *)
Fixpoint scan_once (fuel : nat) (s : pystr) : option (pyval * pystr) :=
  match fuel with
  | O => None
  | S fuel' =>
      match s with
      | [] => None
      | c :: r =>
          if N.eqb c dquote then
            option_map (fun '(tx, r') => (PStr tx, r'))
                       (scanstring (S (List.length r)) r)
          else if N.eqb c 123 then
            match r with
            | c1 :: r1 =>
                if N.eqb c1 dquote then members fuel' r1 []
                else
                  match skip_ws r with
                  | c2 :: r2 =>
                      if N.eqb c2 125 then Some (PDict [], r2)
                      else if N.eqb c2 dquote then members fuel' r2 []
                      else None
                  | [] => None
                  end
            | [] => None
            end
          else if N.eqb c 91 then
            match skip_ws r with
            | c1 :: r1 =>
                if N.eqb c1 93 then Some (PList [], r1)
                else elements fuel' (c1 :: r1) []
            | [] => None
            end
          else
            match strip_prefix (str "null") s with
            | Some r' => Some (PNone, r')
            | None =>
            match strip_prefix (str "true") s with
            | Some r' => Some (PBool true, r')
            | None =>
            match strip_prefix (str "false") s with
            | Some r' => Some (PBool false, r')
            | None =>
            match match_number s with
            | Some (ip, [], [], r') => Some (PInt (int_of_str ip), r')
            | Some (ip, frac, ex, r') =>
                option_map (fun x => (PFloat x, r'))
                           (PyFloat.of_str (ip ++ frac ++ ex))
            | None =>
            match strip_prefix (str "NaN") s with
            | Some r' => Some (PFloat S754_nan, r')
            | None =>
            match strip_prefix (str "Infinity") s with
            | Some r' => Some (PFloat (S754_infinity false), r')
            | None =>
            match strip_prefix (str "-Infinity") s with
            | Some r' => Some (PFloat (S754_infinity true), r')
            | None => None
            end end end end end end end
      end
  end

with members (fuel : nat) (s : pystr) (acc : list (pystr * pyval))
  : option (pyval * pystr) :=
  match fuel with
  | O => None
  | S fuel' =>
      (* [s] starts just after the opening quote of a key *)
      match scanstring (S (List.length s)) s with
      | None => None
      | Some (key, s1) =>
          match skip_ws s1 with
          | c :: s2 =>
              if N.eqb c 58 then
                match scan_once fuel' (skip_ws s2) with
                | None => None
                | Some (v, s3) =>
                    let acc' := acc ++ [(key, v)] in
                    match skip_ws s3 with
                    | c1 :: s4 =>
                        if N.eqb c1 125 then
                          Some (PDict (dict_of_pairs acc'), s4)
                        else if N.eqb c1 44 then
                          match skip_ws s4 with
                          | c2 :: s5 =>
                              if N.eqb c2 dquote then members fuel' s5 acc'
                              else None
                          | [] => None
                          end
                        else None
                    | [] => None
                    end
                end
              else None
          | [] => None
          end
      end
  end

with elements (fuel : nat) (s : pystr) (acc : list pyval)
  : option (pyval * pystr) :=
  match fuel with
  | O => None
  | S fuel' =>
      match scan_once fuel' s with
      | None => None
      | Some (v, s1) =>
          let acc' := acc ++ [v] in
          match skip_ws s1 with
          | c :: s2 =>
              if N.eqb c 93 then Some (PList acc', s2)
              else if N.eqb c 44 then elements fuel' (skip_ws s2) acc'
              else None
          | [] => None
          end
      end
  end.

(** [json.loads(s)]: one value, white space allowed around it, nothing
    else behind it. *)
Definition loads (s : pystr) : option pyval :=
  match scan_once (S (List.length s)) (skip_ws s) with
  | Some (v, r) =>
      match skip_ws r with
      | [] => Some v
      | _ => None
      end
  | None => None
  end.

End Json.
Import Json.

(* ===================================================================== *)
(** * The event-hub client, the console, and the log of calls *)
(* ===================================================================== *)

Module EventHub.

(** A raised Python exception.  [Exn name] is an exception of the class
    [name], any class but the two the interpreter treats apart when they
    go unhandled: [SystemExit], which carries the exit status asked for
    (0 for a code of [None], the integer for an integer code, 1 for any
    other object), and [KeyboardInterrupt]. *)
Inductive exn : Type :=
| Exn (name : string)
| SystemExit (status : Z)
| KeyboardInterrupt.

(** [EventData(body)]: one message.  The client sends a [str] body as
    its UTF-8 encoding. *)
Record EventData : Type := { body : pystr }.

Definition wire_body (e : EventData) : option (list N) :=
  utf8_encode (body e).

(** [EventDataBatch]: the messages added so far, in order. *)
Record EventDataBatch : Type := { events : list EventData }.

(** [EventHubProducerClient]: what it was built from. *)
Record EventHubProducerClient : Type :=
  { conn_str : pystr; eventhub_name : pystr }.

(** The calls the script makes, with their arguments. *)
Inductive call : Type :=
| Print (line : pystr)
| FromConnectionString (cs name : pystr)
| AEnter (p : EventHubProducerClient)
| AExit (p : EventHubProducerClient) (pending : option exn)
| CreateBatch (p : EventHubProducerClient)
| JsonDumps (v : pyval) (indent : option nat)
| NewEventData (text : pystr)
| BatchAdd (b : EventDataBatch) (e : EventData)
| SendBatch (p : EventHubProducerClient) (b : EventDataBatch).

Inductive outcome : Type :=
| Returned
| Raised (e : exn).

(** The log: every call made, in order of evaluation, with how it
    ended. *)
Definition event : Type := call * outcome.
Definition log : Type := list event.

(** The outside world (SDK, network, service, console) decides how each
    call ends, and may look at everything that happened before. *)
Record World : Type := { answer : log -> call -> outcome }.

Inductive kind : Type :=
| KPrint | KFromConnectionString | KAEnter | KAExit | KCreateBatch
| KJsonDumps | KNewEventData | KBatchAdd | KSendBatch.

Definition kind_of (c : call) : kind :=
  match c with
  | Print _ => KPrint
  | FromConnectionString _ _ => KFromConnectionString
  | AEnter _ => KAEnter
  | AExit _ _ => KAExit
  | CreateBatch _ => KCreateBatch
  | JsonDumps _ _ => KJsonDumps
  | NewEventData _ => KNewEventData
  | BatchAdd _ _ => KBatchAdd
  | SendBatch _ _ => KSendBatch
  end.

Definition kind_eqb (a b : kind) : bool :=
  match a, b with
  | KPrint, KPrint | KFromConnectionString, KFromConnectionString
  | KAEnter, KAEnter | KAExit, KAExit | KCreateBatch, KCreateBatch
  | KJsonDumps, KJsonDumps | KNewEventData, KNewEventData
  | KBatchAdd, KBatchAdd | KSendBatch, KSendBatch => true
  | _, _ => false
  end.

(** ** What an observer sees in a log *)

(** Lines written to standard output: those of the calls of [print] that
    returned. *)
Definition stdout (l : log) : list pystr :=
  flat_map (fun ev => match ev with
                      | (Print line, Returned) => [line]
                      | _ => []
                      end) l.

(** Every transmission attempted: hub name and messages. *)
Definition send_attempts (l : log) : list (pystr * list EventData) :=
  flat_map (fun ev => match ev with
                      | (SendBatch p b, _) => [(eventhub_name p, events b)]
                      | _ => []
                      end) l.

(** Messages the service accepted, each with the hub it went to. *)
Definition delivered (l : log) : list (pystr * EventData) :=
  flat_map (fun ev => match ev with
                      | (SendBatch p b, Returned) =>
                          map (pair (eventhub_name p)) (events b)
                      | _ => []
                      end) l.

(** Whether a connection is held at the end of the log: a returned
    [__aenter__] acquires it, a call to [__aexit__] gives it up. *)
Definition connection_open (l : log) : bool :=
  fold_left (fun st ev => match ev with
                          | (AEnter _, Returned) => true
                          | (AExit _ _, _) => false
                          | _ => st
                          end) l false.

Definition failures (l : log) : list exn :=
  flat_map (fun ev => match snd ev with
                      | Raised e => [e]
                      | Returned => []
                      end) l.

Definition kinds (l : log) : list kind := map (fun ev => kind_of (fst ev)) l.

Definition count_kind (k : kind) (l : log) : nat :=
  List.length (filter (kind_eqb k) (kinds l)).

End EventHub.
Import EventHub.

(* ===================================================================== *)
(** * Running Python code against a world *)
(* ===================================================================== *)

(** A computation reads the history so far and yields a value or a raised
    exception, together with the events it added. *)
Definition M (A : Type) : Type := log -> (exn + A) * log.

Definition ret {A} (a : A) : M A := fun _ => (inr a, []).

Definition bind {A B} (m : M A) (f : A -> M B) : M B :=
  fun h =>
    match m h with
    | (inl e, n) => (inl e, n)
    | (inr a, n) => let '(r, n') := f a (h ++ n) in (r, n ++ n')
    end.

Notation "x <- m ;; k" := (bind m (fun x => k))
  (at level 61, m at next level, right associativity).
Notation "m ;; k" := (bind m (fun _ => k))
  (at level 61, right associativity).

Section Calls.

Variable w : World.

(** A call whose outcome the world decides. *)
Definition perform (c : call) : M unit :=
  fun h =>
    match answer w h c with
    | Returned => (inr tt, [(c, Returned)])
    | Raised e => (inl e, [(c, Raised e)])
    end.

(** A call that computes on Python values only and always returns. *)
Definition local {A} (c : call) (a : A) : M A :=
  fun _ => (inr a, [(c, Returned)]).

(** [print(line)] *)
Definition print (line : pystr) : M unit := perform (Print line).

(** [json.dumps(v)] and [json.dumps(v, indent=n)] *)
Definition json_dumps (v : pyval) (indent : option nat) : M pystr :=
  local (JsonDumps v indent) (dumps indent v).

(** [EventData(text)] *)
Definition new_EventData (text : pystr) : M EventData :=
  local (NewEventData text) {| body := text |}.

(** [EventHubProducerClient.from_connection_string(conn_str=cs,
    eventhub_name=name)] *)
Definition from_connection_string (cs name : pystr)
  : M EventHubProducerClient :=
  perform (FromConnectionString cs name) ;;
  ret {| conn_str := cs; eventhub_name := name |}.

(** [await producer.create_batch()]: a batch with nothing in it. *)
Definition create_batch (p : EventHubProducerClient) : M EventDataBatch :=
  perform (CreateBatch p) ;;
  ret {| events := [] |}.

(** [batch.add(e)]: [e] goes to the end of the batch, unless the call
    raises (the SDK raises [ValueError] when the batch is full). *)
Definition batch_add (b : EventDataBatch) (e : EventData)
  : M EventDataBatch :=
  perform (BatchAdd b e) ;;
  ret {| events := events b ++ [e] |}.

(** [await producer.send_batch(b)] *)
Definition send_batch (p : EventHubProducerClient) (b : EventDataBatch)
  : M unit :=
  perform (SendBatch p b).

(** [async with p: block].  [__aenter__] is awaited first; if it
    returns, [block] runs and [__aexit__] is awaited whether [block]
    returned or raised.  The client's [__aexit__] returns [None], so an
    exception of [block] is raised again afterwards; an exception of
    [__aexit__] itself takes its place. *)
Definition async_with {A} (p : EventHubProducerClient) (block : M A) : M A :=
  fun h =>
    match perform (AEnter p) h with
    | (inl e, n0) => (inl e, n0)
    | (inr _, n0) =>
        match block (h ++ n0) with
        | (inr a, n1) =>
            match perform (AExit p None) (h ++ n0 ++ n1) with
            | (inl e', n2) => (inl e', n0 ++ n1 ++ n2)
            | (inr _, n2) => (inr a, n0 ++ n1 ++ n2)
            end
        | (inl e, n1) =>
            match perform (AExit p (Some e)) (h ++ n0 ++ n1) with
            | (inl e', n2) => (inl e', n0 ++ n1 ++ n2)
            | (inr _, n2) => (inl e, n0 ++ n1 ++ n2)
            end
        end
    end.

(** [asyncio.run(coro)]: runs the coroutine to its end and hands on
    its result or its exception. *)
Definition asyncio_run {A} (coro : M A) : M A := coro.

End Calls.

(* ===================================================================== *)
(** * The script *)
(* ===================================================================== *)

(** The record literal [test_order].  The source builds it as the first
    statement of the [async with] block; building it calls nothing. *)
Definition test_order : pyval :=
  PDict
    [ (str "user_id", PStr (str "test-user-12345"));
      (str "order_id", PStr (str "test-order-67890"));
      (str "timestamp", PStr (str "2025-10-27T23:20:00Z"));
      (str "amount", PFloat (PyFloat.lit "99.99"));
      (str "currency", PStr (str "USD"));
      (str "items",
        PList
          [ PDict [ (str "product_id", PStr (str "test-product"));
                    (str "quantity", PInt 1);
                    (str "price", PFloat (PyFloat.lit "99.99")) ] ]) ].

(** The banners and the prefix of the echo line.  Each starts with one
    character outside ASCII (U+2705, U+1F4CB, U+1F504, U+2728), given by
    its code point. *)
Definition success_banner : pystr :=
  9989%N :: str " Successfully sent test message to EventHub!".
Definition message_prefix : pystr := 128203%N :: str " Message: ".
Definition start_banner : pystr :=
  128260%N :: str " Testing EventHub integration...".
Definition done_banner : pystr := 10024%N :: str " Test completed!".

Section Script.

Variable w : World.

Definition send_test_message : M unit :=
  let connection_string := str "" in
  let eventhub_name := str "otel-events" in
  producer <- from_connection_string w connection_string eventhub_name ;;
  async_with w producer
    (event_data_batch <- create_batch w producer ;;
     text <- json_dumps test_order None ;;
     event_data <- new_EventData text ;;
     event_data_batch <- batch_add w event_data_batch event_data ;;
     send_batch w producer event_data_batch ;;
     print w success_banner ;;
     echo <- json_dumps test_order (Some 2%nat) ;;
     print w (message_prefix ++ echo)).

(** The [__main__] block. *)
Definition main : M unit :=
  print w start_banner ;;
  asyncio_run send_test_message ;;
  print w done_banner.

End Script.

(** ** How the process ends *)

(** A process ends with an exit status or is killed by a signal. *)
Inductive termination : Type :=
| Exited (status : Z)
| Signalled (signal : Z).

(** What CPython (3.8 or later, on a POSIX system) does once the module
    has ended with [r].  An unhandled exception is reported and gives
    status 1; [SystemExit] gives the status it asks for, of which the
    system keeps the low eight bits; then the interpreter flushes the
    standard streams, and if that flush fails ([flushed = false]) the
    status becomes 120 whatever it was; an unhandled [KeyboardInterrupt]
    makes the interpreter kill itself with SIGINT (signal 2) after
    that. *)
Definition finish {A} (r : exn + A) (flushed : bool) : termination :=
  match r with
  | inl KeyboardInterrupt => Signalled 2
  | inl (SystemExit status) =>
      if flushed then Exited (status mod 256) else Exited 120
  | inl (Exn _) => if flushed then Exited 1 else Exited 120
  | inr _ => if flushed then Exited 0 else Exited 120
  end.

(** [python test-eventhub.py]: the [__main__] block, then the end of
    the interpreter.  Whether the final flush succeeds is for the
    outside to decide, like the answers of the world. *)
Definition python (w : World) (flushed : bool) (h : log)
  : termination * log :=
  let '(r, new) := main w h in (finish r flushed, new).

Definition ordinary (e : exn) : bool :=
  match e with
  | Exn _ => true
  | _ => false
  end.

(** ** Two worlds to run the script in *)

(** Everything succeeds: the connection string is accepted, the hub is
    reachable, the console takes every line. *)
Definition all_ok : World := {| answer := fun _ _ => Returned |}.

(** The client refuses a blank connection string with [ValueError]
    when it is built; everything else succeeds. *)
Definition blank_refused : World :=
  {| answer := fun _ c =>
       match c with
       | FromConnectionString [] _ => Raised (Exn "ValueError")
       | _ => Returned
       end |}.

(** The service turns the batch down; everything else succeeds. *)
Definition send_refused : World :=
  {| answer := fun _ c =>
       match c with
       | SendBatch _ _ => Raised (Exn "EventHubError")
       | _ => Returned
       end |}.


(** Modelled from the spec: the check of the connection string made by
    [EventHubProducerClient.from_connection_string], which belongs to
    the SDK and is not in src/.  The spec describes a connection string
    as an endpoint and a credential, and says that with an invalid or
    empty one the call raises an error before any network send is
    attempted.  Of the ways of being invalid the model keeps the one the
    spec names and the script exhibits: a string with no text in it
    (empty, or white space only) holds neither endpoint nor credential. *)
Definition connection_string_valid (cs : pystr) : bool :=
  negb (forallb is_ws cs).

(** Modelled from the spec: a world [w] in which building the client
    makes that check first and raises [err] on an invalid connection
    string; every other call, and building a client from a valid string,
    ends as in [w]. *)
Definition spec_client (err : exn) (w : World) : World :=
  {| answer := fun h c =>
       match c with
       | FromConnectionString cs _ =>
           if connection_string_valid cs then answer w h c else Raised err
       | _ => answer w h c
       end |}.

(** A valid, reachable target: building the client, entering it, making
    the batch, adding to it and sending it all return. *)
Definition is_sdk_request (c : call) : bool :=
  match kind_of c with
  | KFromConnectionString | KAEnter | KCreateBatch | KBatchAdd
  | KSendBatch => true
  | _ => false
  end.

Definition valid_reachable_target (w : World) : Prop :=
  forall h c, is_sdk_request c = true -> answer w h c = Returned.

(** ** What the properties speak about *)

(** Every message handed to [send_batch], delivered or not. *)
Definition sent_messages (l : log) : list EventData :=
  flat_map snd (send_attempts l).

(** The values the script's local variables hold. *)
Definition producer : EventHubProducerClient :=
  {| conn_str := str ""; eventhub_name := str "otel-events" |}.
Definition event_data : EventData := {| body := dumps None test_order |}.

Definition order_keys : list pystr :=
  [str "user_id"; str "order_id"; str "timestamp"; str "amount";
   str "currency"; str "items"].

(** A string literal of JSON: the text between two double quotes. *)
Definition quoted (s : string) : pystr := dquote :: str s ++ [dquote].

(** The text [json.dumps(test_order)] returns in Python, written out. *)
Definition payload_text : pystr :=
  str "{" ++ quoted "user_id" ++ str ": " ++ quoted "test-user-12345"
    ++ str ", " ++ quoted "order_id" ++ str ": " ++ quoted "test-order-67890"
    ++ str ", " ++ quoted "timestamp" ++ str ": "
    ++ quoted "2025-10-27T23:20:00Z"
    ++ str ", " ++ quoted "amount" ++ str ": 99.99"
    ++ str ", " ++ quoted "currency" ++ str ": " ++ quoted "USD"
    ++ str ", " ++ quoted "items" ++ str ": [{"
    ++ quoted "product_id" ++ str ": " ++ quoted "test-product"
    ++ str ", " ++ quoted "quantity" ++ str ": 1"
    ++ str ", " ++ quoted "price" ++ str ": 99.99" ++ str "}]}".

(** *** The Order Event shape of the specification *)

Definition two_digits (a b : N) : N := (10 * (a - 48) + (b - 48))%N.

Definition days_in_month (year month : N) : N :=
  (if (month =? 2) then
     if ((year mod 4 =? 0) && negb (year mod 100 =? 0)) || (year mod 400 =? 0)
     then 29 else 28
   else if (month =? 4) || (month =? 6) || (month =? 9) || (month =? 11)
   then 30 else 31)%N.

(** An ISO-8601 calendar date and time of day in UTC, written
    [YYYY-MM-DDThh:mm:ssZ]. *)
Definition is_iso8601_utc (s : pystr) : bool :=
  match s with
  | [y1; y2; y3; y4; a; m1; m2; b; d1; d2; t; h1; h2; c; n1; n2; d; s1; s2; z] =>
      let year := (100 * two_digits y1 y2 + two_digits y3 y4)%N in
      let month := two_digits m1 m2 in
      let day := two_digits d1 d2 in
      (forallb is_digit [y1; y2; y3; y4; m1; m2; d1; d2; h1; h2; n1; n2; s1; s2]
       && (a =? 45) && (b =? 45) && (t =? 84) && (c =? 58) && (d =? 58)
       && (z =? 90)
       && (1 <=? month) && (month <=? 12)
       && (1 <=? day) && (day <=? days_in_month year month)
       && (two_digits h1 h2 <=? 23) && (two_digits n1 n2 <=? 59)
       && (two_digits s1 s2 <=? 59))%N
  | _ => false
  end.

(** An ISO 4217 alphabetic code: three upper-case Latin letters. *)
Definition is_iso4217_alpha (s : pystr) : bool :=
  match s with
  | [a; b; c] => forallb (fun x => (65 <=? x) && (x <=? 90))%N [a; b; c]
  | _ => false
  end.

Definition is_decimal (v : pyval) : bool :=
  match v with
  | PInt _ => true
  | PFloat (S754_finite _ _ _) | PFloat (S754_zero _) => true
  | _ => false
  end.

Definition field (k : string) (ok : pyval -> bool) (d : list (pystr * pyval))
  : bool :=
  match dict_get (str k) d with
  | Some v => ok v
  | None => false
  end.

Definition is_str (v : pyval) : bool :=
  match v with PStr _ => true | _ => false end.

Definition is_int (v : pyval) : bool :=
  match v with PInt _ => true | _ => false end.

Definition item_shape (v : pyval) : bool :=
  match v with
  | PDict d =>
      Nat.eqb (List.length d) 3
      && field "product_id" is_str d
      && field "quantity" is_int d
      && field "price" is_decimal d
  | _ => false
  end.

Definition order_event_shape (v : pyval) : bool :=
  match v with
  | PDict d =>
      Nat.eqb (List.length d) 6
      && field "user_id" is_str d
      && field "order_id" is_str d
      && field "timestamp"
           (fun x => match x with PStr s => is_iso8601_utc s | _ => false end) d
      && field "amount" is_decimal d
      && field "currency"
           (fun x => match x with PStr s => is_iso4217_alpha s | _ => false end) d
      && field "items"
           (fun x => match x with PList l => forallb item_shape l | _ => false end) d
  | _ => false
  end.

(** *** Failures *)



Definition full_console : list pystr :=
  [start_banner; success_banner;
   message_prefix ++ dumps (Some 2%nat) test_order; done_banner].

(** *** The steps up to the transmission *)

(** The five steps the claim is about. *)
Definition is_pipeline_kind (k : kind) : bool :=
  match k with
  | KCreateBatch | KJsonDumps | KNewEventData | KBatchAdd | KSendBatch => true
  | _ => false
  end.

(** A log up to and including its first transmission. *)
Fixpoint up_to_send (l : log) : log :=
  match l with
  | [] => []
  | (SendBatch p b, o) :: _ => [(SendBatch p b, o)]
  | ev :: r => ev :: up_to_send r
  end.

Definition steps_to_send (l : log) : list kind :=
  filter is_pipeline_kind (kinds (up_to_send l)).

(** The order as the claim words it: serialise, wrap, create the batch,
    append, transmit. *)
Definition claimed_order : list kind :=
  [KJsonDumps; KNewEventData; KCreateBatch; KBatchAdd; KSendBatch].

(** The order of the source: [create_batch] (line 34) comes before
    [EventData(json.dumps(test_order))] (line 37). *)
Definition source_order : list kind :=
  [KCreateBatch; KJsonDumps; KNewEventData; KBatchAdd; KSendBatch].

(** The five steps with their arguments, the transmission ending with
    outcome [o]. *)
Definition pipeline (o : outcome) : log :=
  [ (CreateBatch producer, Returned);
    (JsonDumps test_order None, Returned);
    (NewEventData (dumps None test_order), Returned);
    (BatchAdd {| events := [] |} event_data, Returned);
    (SendBatch producer {| events := [event_data] |}, o) ].

(** *** The calls of a run that succeeds *)

(** The release of the scoped client fails with [e]; every other call
    returns. *)
Definition release_refused (e : exn) : World :=
  {| answer := fun _ c =>
       match c with
       | AExit _ _ => Raised e
       | _ => Returned
       end |}.

(** Entering the scoped client fails; every other call returns. *)
Definition enter_refused : World :=
  {| answer := fun _ c =>
       match c with
       | AEnter _ => Raised (Exn "ConnectError")
       | _ => Returned
       end |}.





(* ===================================================================== *)
(** * Properties *)
(* ===================================================================== *)

(** ** Strings *)

Lemma pystr_eqb_eq (a b : pystr) : pystr_eqb a b = true <-> a = b.
Proof.
  unfold pystr_eqb. destruct (list_eq_dec N.eq_dec a b); split; congruence.
Qed.

(** An ASCII text is its own UTF-8 encoding, and decodes to itself. *)
Lemma utf8_encode_ascii (s : pystr) :
  is_ascii s = true -> utf8_encode s = Some s.
Proof.
  induction s as [| c r IH]; cbn [is_ascii forallb utf8_encode].
  - reflexivity.
  - intros H. apply andb_prop in H as [Hc Hr].
    unfold utf8_encode_char. rewrite Hc.
    fold (is_ascii r) in Hr. rewrite (IH Hr). reflexivity.
Qed.

Lemma utf8_decode_ascii (s : pystr) :
  is_ascii s = true -> utf8_decode s = Some s.
Proof.
  unfold utf8_decode.
  induction s as [| c r IH];
    cbn [is_ascii forallb List.length utf8_decode_fuel].
  - reflexivity.
  - intros H. apply andb_prop in H as [Hc Hr].
    rewrite Hc. fold (is_ascii r) in Hr. rewrite (IH Hr). reflexivity.
Qed.

(** ** The library models on known values *)

(** [repr] of a float, on numerals whose [repr] in CPython is well known:
    the shortest digits that read back, exponent notation from [1e16] up
    and below [1e-4]. *)
Example repr_samples :
  map (fun s => PyFloat.repr (PyFloat.lit s))
      ["0.1"; "0.30000000000000004"; "100"; "2.5e0"; "1e15"; "1e16"; "1e22";
       "0.0001"; "0.00001"; "5e-324"; "1.7976931348623157e308"; "1e400";
       "9007199254740993"]%string
  = map str
      ["0.1"; "0.30000000000000004"; "100.0"; "2.5"; "1000000000000000.0";
       "1e+16"; "1e+22"; "0.0001"; "1e-05"; "5e-324";
       "1.7976931348623157e+308"; "inf"; "9007199254740992.0"]%string.
Proof. vm_compute. reflexivity. Qed.

(** [json.loads]: white space around tokens, integers and floats told
    apart, a later duplicate key replacing the value of the first. *)
Example loads_samples :
  loads (str " [1 , -2, 3.5e1, 1E2, true, null, {}, []] ")
  = Some (PList [PInt 1; PInt (-2); PFloat (PyFloat.lit "35.0");
                 PFloat (PyFloat.lit "100.0"); PBool true; PNone;
                 PDict []; PList []])
  /\ loads (str "{" ++ quoted "a" ++ str ": 1, " ++ quoted "b" ++ str ": 2, "
            ++ quoted "a" ++ str ": 3}")
     = Some (PDict [(str "a", PInt 3); (str "b", PInt 2)])
  /\ loads (str "[1,]") = None
  /\ loads (str "01") = None
  /\ loads (str "1.") = None
  /\ loads (str "[1] x") = None.
Proof. vm_compute. repeat split. Qed.

(** [json.dumps]: escapes under [ensure_ascii], and the layout with
    [indent=2]. *)
Example dumps_samples :
  dumps None (PStr [233; 10; 128260]%N)
  = dquote :: backslash :: str "u00e9" ++ backslash :: str "n"
      ++ backslash :: str "ud83d" ++ backslash :: str "udd04" ++ [dquote]
  /\ dumps (Some 2%nat) (PDict [(str "k", PList [PInt 1; PInt 2])])
     = str "{" ++ [10%N] ++ str "  " ++ quoted "k" ++ str ": ["
         ++ [10%N] ++ str "    1," ++ [10%N] ++ str "    2"
         ++ [10%N] ++ str "  ]" ++ [10%N] ++ str "}".
Proof. vm_compute. split; reflexivity. Qed.

(** ** The literal and its JSON text *)

Example lit_99_99 :
  PyFloat.lit "99.99" = S754_finite false 7036170730324623 (-46).
Proof. vm_compute. reflexivity. Qed.

Example lit_99_99_valid :
  valid_binary PyFloat.prec PyFloat.emax (PyFloat.lit "99.99") = true.
Proof. vm_compute. reflexivity. Qed.

Example repr_99_99 : PyFloat.repr (PyFloat.lit "99.99") = str "99.99".
Proof. vm_compute. reflexivity. Qed.

(** The first character of each banner, as the bytes of the source file. *)
Example banner_bytes :
  utf8_encode [hd 0%N start_banner] = Some [240; 159; 148; 132]%N
  /\ utf8_encode [hd 0%N success_banner] = Some [226; 156; 133]%N
  /\ utf8_encode [hd 0%N message_prefix] = Some [240; 159; 147; 139]%N
  /\ utf8_encode [hd 0%N done_banner] = Some [226; 156; 168]%N.
Proof. repeat split. Qed.

(** [json.dumps] on the record gives the text Python gives: keys in the
    order of the literal, [", "] and [": "] as separators, 99.99 printed
    as [99.99]. *)
Lemma dumps_test_order : dumps None test_order = payload_text.
Proof. vm_compute. reflexivity. Qed.

Lemma loads_dumps_test_order : loads (dumps None test_order) = Some test_order.
Proof. vm_compute. reflexivity. Qed.

Lemma loads_dumps_indent_test_order :
  loads (dumps (Some 2%nat) test_order) = Some test_order.
Proof. vm_compute. reflexivity. Qed.

(** ** Running the script symbolically *)

Ltac unfold_script H :=
  cbv beta iota zeta delta
    [main send_test_message asyncio_run async_with from_connection_string
     create_batch batch_add send_batch print json_dumps new_EventData
     local perform bind ret] in H.

Ltac step_world w H :=
  match type of H with
  | context [answer w ?h ?c] =>
      let A := fresh "A" in
      destruct (answer w h c) eqn:A; cbv beta iota zeta in H
  end.

Ltac run_script w H :=
  unfold_script H; repeat step_world w H;
  cbn [app events body eventhub_name conn_str] in H.

(** ** C3: the JSON round trip *)

(** C3. Serialising the fixed record with [json.dumps] and reading the
    text back with [json.loads] gives a structure equal to the record;
    in the structure read back, [amount] is still the float 99.99 and
    [items] is still a sequence of one element. *)
Theorem C3_json_round_trip :
  loads (dumps None test_order) = Some test_order
  /\ exists d item,
       loads (dumps None test_order) = Some (PDict d)
       /\ dict_get (str "amount") d = Some (PFloat (PyFloat.lit "99.99"))
       /\ dict_get (str "items") d = Some (PList [item]).
Proof.
  split; [exact loads_dumps_test_order |].
  rewrite loads_dumps_test_order. unfold test_order.
  eexists. eexists. split; [reflexivity |]. split; reflexivity.
Qed.

(** ** C1: one message, with the literal values *)

(** With a valid, reachable target the one message made from the record is
    delivered, whatever the console does afterwards. *)
Lemma delivered_when_reachable (w : World) (h : log) :
  valid_reachable_target w ->
  delivered (snd (send_test_message w h)) = [(str "otel-events", event_data)].
Proof.
  intros V.
  destruct (send_test_message w h) as [r new] eqn:H.
  run_script w H;
    try match goal with
      | A : answer w ?k ?c = Raised _ |- _ =>
          rewrite (V k c eq_refl) in A; discriminate A
      end;
    injection H as <- <-; reflexivity.
Qed.

(** C1. When the target is valid and reachable, the send operation
    delivers exactly one message, to the hub [otel-events]; its body is
    JSON for an object with exactly the keys [user_id], [order_id],
    [timestamp], [amount], [currency], [items], where [user_id] is
    ["test-user-12345"], [order_id] is ["test-order-67890"], [amount] is
    99.99, [currency] is ["USD"], and [items] has one element, whose
    [quantity] is 1 and [price] is 99.99. *)
Theorem C1_one_message_delivered (w : World) (h : log) :
  valid_reachable_target w ->
  exists e d item,
    delivered (snd (send_test_message w h)) = [(str "otel-events", e)]
    /\ loads (body e) = Some (PDict d)
    /\ keys d = order_keys
    /\ dict_get (str "user_id") d = Some (PStr (str "test-user-12345"))
    /\ dict_get (str "order_id") d = Some (PStr (str "test-order-67890"))
    /\ dict_get (str "amount") d = Some (PFloat (PyFloat.lit "99.99"))
    /\ dict_get (str "currency") d = Some (PStr (str "USD"))
    /\ dict_get (str "items") d = Some (PList [PDict item])
    /\ dict_get (str "quantity") item = Some (PInt 1)
    /\ dict_get (str "price") item = Some (PFloat (PyFloat.lit "99.99")).
Proof.
  intros V.
  exists event_data.
  assert (L : loads (body event_data) = Some test_order)
    by exact loads_dumps_test_order.
  rewrite L. unfold test_order.
  eexists. eexists.
  split; [exact (delivered_when_reachable w h V) |].
  split; [reflexivity |]. repeat split; reflexivity.
Qed.

Lemma all_ok_reachable : valid_reachable_target all_ok.
Proof. intros h c _. reflexivity. Qed.

Lemma C1_one_message_delivered_witness :
  valid_reachable_target all_ok
  /\ exists e, delivered (snd (send_test_message all_ok [])) =
               [(str "otel-events", e)].
Proof.
  split; [exact all_ok_reachable |].
  destruct (C1_one_message_delivered all_ok [] all_ok_reachable)
    as (e & d & item & D & _).
  exists e. exact D.
Defined.

(** ** C2: an invalid connection string *)

(** When building the client raises, the send operation raises that
    error at once: building the client is its only call. *)
Lemma refusal_ends_the_operation (w : World) (h : log) (e : exn) :
  answer w h (FromConnectionString (str "") (str "otel-events")) = Raised e ->
  send_test_message w h
    = (inl e, [(FromConnectionString (str "") (str "otel-events"), Raised e)]).
Proof.
  intros R.
  cbv beta iota zeta delta
    [send_test_message from_connection_string bind perform].
  rewrite R. reflexivity.
Qed.

(** C2. The connection string of the source, the empty literal, is
    invalid; with a client that checks the connection string when it is
    built, the send operation raises the client's error at once, in
    every world and after any history: building the client is its only
    call, so no transmission is attempted, nothing is printed, and the
    success banner in particular is never printed. *)
Theorem C2_invalid_connection_string (err : exn) (w : World) (h : log) :
  connection_string_valid (str "") = false
  /\ send_test_message (spec_client err w) h
     = (inl err,
        [(FromConnectionString (str "") (str "otel-events"), Raised err)])
  /\ send_attempts (snd (send_test_message (spec_client err w) h)) = []
  /\ count_kind KSendBatch (snd (send_test_message (spec_client err w) h))
     = 0%nat
  /\ (forall o,
         ~ In (Print success_banner, o)
              (snd (send_test_message (spec_client err w) h)))
  /\ stdout (snd (send_test_message (spec_client err w) h)) = [].
Proof.
  split; [reflexivity |].
  assert (E : send_test_message (spec_client err w) h
              = (inl err,
                 [(FromConnectionString (str "") (str "otel-events"),
                   Raised err)]))
    by (apply refusal_ends_the_operation; reflexivity).
  rewrite E. cbn [snd].
  repeat split; try reflexivity.
  intros o [P | []]. discriminate P.
Qed.

(** ** C4: the scoped connection *)

(** [async with] in general: once [__aenter__] has returned, the events
    of the statement are those of the block followed by one call of
    [__aexit__], whatever the block did. *)
Lemma async_with_brackets {A} (w : World) (p : EventHubProducerClient)
      (block : M A) (h : log) :
  answer w h (AEnter p) = Returned ->
  exists pending o,
    snd (async_with w p block h)
    = (AEnter p, Returned)
        :: snd (block (h ++ [(AEnter p, Returned)]))
        ++ [(AExit p pending, o)].
Proof.
  intros E. unfold async_with, perform. rewrite E.
  destruct (block (h ++ [(AEnter p, Returned)])) as [[e | a] n1]; cbn [snd].
  - exists (Some e).
    destruct (answer w _ (AExit p (Some e))) as [| e'];
      [exists Returned | exists (Raised e')]; reflexivity.
  - exists None.
    destruct (answer w _ (AExit p None)) as [| e'];
      [exists Returned | exists (Raised e')]; reflexivity.
Qed.

Lemma connection_open_released (l : log) p pending o :
  connection_open (l ++ [(AExit p pending, o)]) = false.
Proof. unfold connection_open. rewrite fold_left_app. reflexivity. Qed.

Ltac in_cases H :=
  cbn [In] in H;
  repeat (let H' := fresh in destruct H as [H' | H];
          [try discriminate H' |]);
  try contradiction.

Ltac split_last :=
  match goal with
  | |- exists before pending o, ?l = _ => exists (removelast l)
  end.

(** C4. Whenever the send operation has acquired the scoped connection
    ([__aenter__] returned), its last action is the release of that
    connection ([__aexit__] on the same client), on the path where the
    block succeeds and on every path where it raises; the release happens
    once and no connection is held when the operation ends. *)
Theorem C4_connection_released (w : World) (h : log)
        (p : EventHubProducerClient) :
  In (AEnter p, Returned) (snd (send_test_message w h)) ->
  (exists before pending o,
      snd (send_test_message w h) = before ++ [(AExit p pending, o)])
  /\ count_kind KAExit (snd (send_test_message w h)) = 1%nat
  /\ connection_open (snd (send_test_message w h)) = false.
Proof.
  destruct (send_test_message w h) as [r new] eqn:H. cbn [snd].
  intros I.
  run_script w H; injection H as <- <-; in_cases I;
    match goal with
    | Q : (AEnter _, _) = (AEnter p, _) |- _ => injection Q as Q; subst p
    end;
    (split; [split_last; do 2 eexists; reflexivity | split; reflexivity]).
Qed.

Lemma C4_connection_released_witness :
  In (AEnter producer, Returned) (snd (send_test_message send_refused []))
  /\ connection_open (snd (send_test_message send_refused [])) = false.
Proof.
  assert (I : In (AEnter producer, Returned)
                 (snd (send_test_message send_refused []))).
  { right. left. reflexivity. }
  split; [exact I |].
  apply (C4_connection_released send_refused [] producer I).
Defined.

(** On every path, acquired or not, nothing is held at the end.  The
    proof does not look inside the block: it only uses how [async with]
    brackets it. *)
Lemma connection_never_left_open (w : World) (h : log) :
  connection_open (snd (send_test_message w h)) = false.
Proof.
  unfold send_test_message. cbv zeta.
  unfold bind at 1. unfold from_connection_string, bind, perform, ret.
  destruct (answer w h (FromConnectionString (str "") (str "otel-events")));
    [| reflexivity].
  match goal with
  | |- context [async_with w ?p ?blk ?k] =>
      destruct (answer w k (AEnter p)) eqn:E;
      [ destruct (async_with_brackets w p blk k E) as (pending & o & Q);
        destruct (async_with w p blk k) as [r n]; cbn [snd] in Q; subst n
      | unfold async_with, perform; rewrite E ]
  end; cbn [snd app].
  - rewrite 2 app_comm_cons. apply connection_open_released.
  - reflexivity.
Qed.

(** ** What is handed to [send_batch] *)

(** At most one transmission is attempted, and it is always the same
    one: the client built for [otel-events], a batch holding the one
    message made from the record. *)
Lemma send_attempts_cases (w : World) (h : log) :
  send_attempts (snd (send_test_message w h)) = []
  \/ send_attempts (snd (send_test_message w h))
     = [(str "otel-events", [event_data])].
Proof.
  destruct (send_test_message w h) as [r new] eqn:H. cbn [snd].
  run_script w H; injection H as <- <-;
    first [left; reflexivity | right; reflexivity].
Qed.

Lemma sent_messages_cases (w : World) (h : log) :
  sent_messages (snd (send_test_message w h)) = []
  \/ sent_messages (snd (send_test_message w h)) = [event_data].
Proof.
  unfold sent_messages.
  destruct (send_attempts_cases w h) as [E | E]; rewrite E;
    [left | right]; reflexivity.
Qed.

Lemma sent_message_is_event_data (w : World) (h : log) (e : EventData) :
  In e (sent_messages (snd (send_test_message w h))) -> e = event_data.
Proof.
  destruct (sent_messages_cases w h) as [E | E]; rewrite E; intros I.
  - destruct I.
  - destruct I as [<- | []]. reflexivity.
Qed.

Lemma all_ok_sends :
  In event_data (sent_messages (snd (send_test_message all_ok []))).
Proof. left. reflexivity. Qed.

(** ** C6: the wire payload *)

Lemma test_order_shape : order_event_shape test_order = true.
Proof. vm_compute. reflexivity. Qed.

Lemma event_data_on_the_wire :
  exists bytes,
    wire_body event_data = Some bytes
    /\ utf8_decode bytes = Some (dumps None test_order).
Proof.
  assert (A : is_ascii (dumps None test_order) = true)
    by (vm_compute; reflexivity).
  exists (dumps None test_order). split.
  - apply utf8_encode_ascii, A.
  - apply utf8_decode_ascii, A.
Qed.

(** C6. Whatever the world does, every batch handed to [send_batch] goes
    to the hub named [otel-events] and holds a single message; the body
    of that message, as bytes, is valid UTF-8, the decoded text is JSON,
    and the JSON value has the Order Event shape. *)
Theorem C6_wire_payload (w : World) (h : log)
        (hub : pystr) (msgs : list EventData) :
  In (hub, msgs) (send_attempts (snd (send_test_message w h))) ->
  hub = str "otel-events"
  /\ exists e bytes text v,
       msgs = [e]
       /\ wire_body e = Some bytes
       /\ utf8_decode bytes = Some text
       /\ loads text = Some v
       /\ order_event_shape v = true.
Proof.
  intros I.
  destruct (send_attempts_cases w h) as [E | E]; rewrite E in I.
  - destruct I.
  - destruct I as [Q | []]. injection Q as <- <-.
    split; [reflexivity |].
    destruct event_data_on_the_wire as (bytes & W & U).
    exists event_data, bytes, (dumps None test_order), test_order.
    repeat split; auto using loads_dumps_test_order, test_order_shape.
Qed.

Lemma C6_wire_payload_witness :
  In (str "otel-events", [event_data])
     (send_attempts (snd (send_test_message all_ok [])))
  /\ str "otel-events" = str "otel-events".
Proof.
  assert (I : In (str "otel-events", [event_data])
                 (send_attempts (snd (send_test_message all_ok [])))).
  { left. reflexivity. }
  split; [exact I |].
  apply (C6_wire_payload all_ok [] _ _ I).
Defined.

(** ** C9: the timestamp *)

(** C9. In every run of the send operation, whatever the world and
    whatever happened before, each message handed to [send_batch] carries
    the timestamp ["2025-10-27T23:20:00Z"], the literal of the source. *)
Theorem C9_fixed_timestamp (w : World) (h : log) (e : EventData) :
  In e (sent_messages (snd (send_test_message w h))) ->
  exists d,
    loads (body e) = Some (PDict d)
    /\ dict_get (str "timestamp") d = Some (PStr (str "2025-10-27T23:20:00Z")).
Proof.
  intros I. apply sent_message_is_event_data in I. subst e.
  change (body event_data) with (dumps None test_order).
  rewrite loads_dumps_test_order. unfold test_order.
  eexists. split; reflexivity.
Qed.

Lemma C9_fixed_timestamp_witness :
  exists d,
    loads (body event_data) = Some (PDict d)
    /\ dict_get (str "timestamp") d = Some (PStr (str "2025-10-27T23:20:00Z")).
Proof.
  apply (C9_fixed_timestamp all_ok [] event_data). exact all_ok_sends.
Defined.

(** ** C10: the payload does not depend on the run *)

(** C10. Take any two runs of the send operation, in any two worlds and
    after any two histories.  Any message sent in the first and any
    message sent in the second have the same body, character for
    character, and the same bytes on the wire.  When both targets are
    valid and reachable, each run makes its own delivery, and the two
    deliveries carry that same message. *)
Theorem C10_same_payload_every_run (w1 w2 : World) (h1 h2 : log) :
  (forall m1 m2,
      In m1 (sent_messages (snd (send_test_message w1 h1))) ->
      In m2 (sent_messages (snd (send_test_message w2 h2))) ->
      body m1 = body m2
      /\ exists bytes, wire_body m1 = Some bytes /\ wire_body m2 = Some bytes)
  /\ (valid_reachable_target w1 -> valid_reachable_target w2 ->
      exists e,
        delivered (snd (send_test_message w1 h1)) = [(str "otel-events", e)]
        /\ delivered (snd (send_test_message w2 h2)) = [(str "otel-events", e)]).
Proof.
  split.
  - intros m1 m2 I1 I2.
    apply sent_message_is_event_data in I1, I2. subst m1 m2.
    split; [reflexivity |].
    destruct event_data_on_the_wire as (bytes & W & _).
    exists bytes. split; exact W.
  - intros V1 V2.
    exists event_data.
    split; apply delivered_when_reachable; assumption.
Qed.

(** Two runs one after the other in the world where everything succeeds:
    the second starts from the log the first has left. *)
Lemma C10_same_payload_every_run_witness :
  In event_data (sent_messages (snd (send_test_message all_ok [])))
  /\ In event_data
        (sent_messages
           (snd (send_test_message all_ok (snd (send_test_message all_ok [])))))
  /\ valid_reachable_target all_ok
  /\ exists e,
       delivered (snd (send_test_message all_ok [])) = [(str "otel-events", e)]
       /\ delivered
            (snd (send_test_message all_ok (snd (send_test_message all_ok []))))
          = [(str "otel-events", e)].
Proof.
  split; [exact all_ok_sends |].
  split; [left; reflexivity |].
  split; [exact all_ok_reachable |].
  apply (C10_same_payload_every_run
           all_ok all_ok [] (snd (send_test_message all_ok [])));
    exact all_ok_reachable.
Defined.

(** ** C8: the record is only read *)

Lemma strip_prefix_app (p s : pystr) : strip_prefix p (p ++ s) = Some s.
Proof.
  induction p as [| c p IH]; cbn [strip_prefix app].
  - reflexivity.
  - rewrite N.eqb_refl. exact IH.
Qed.

Lemma success_banner_is_no_echo : strip_prefix message_prefix success_banner = None.
Proof. reflexivity. Qed.

(** C8. The record is the literal [test_order] at every use: each call of
    [json.dumps], the one before batching and sending and the one after,
    is given that same value; every message sent reads back as it; and
    every line printed that echoes the message reads back as it.  When
    the operation returns, the console shows the success banner and then
    the echo of the record as constructed. *)
Theorem C8_record_unchanged (w : World) (h : log) :
  (forall v indent o,
      In (JsonDumps v indent, o) (snd (send_test_message w h)) ->
      v = test_order)
  /\ (forall e,
         In e (sent_messages (snd (send_test_message w h))) ->
         loads (body e) = Some test_order)
  /\ (forall line echo,
         In line (stdout (snd (send_test_message w h))) ->
         strip_prefix message_prefix line = Some echo ->
         loads echo = Some test_order)
  /\ (fst (send_test_message w h) = inr tt ->
      stdout (snd (send_test_message w h))
      = [success_banner; message_prefix ++ dumps (Some 2%nat) test_order]).
Proof.
  split; [| split; [| split]].
  - intros v indent o I.
    destruct (send_test_message w h) as [r new] eqn:H. cbn [snd] in I.
    run_script w H; injection H as <- <-; in_cases I;
      match goal with
      | Q : (JsonDumps _ _, _) = (JsonDumps v _, _) |- _ =>
          injection Q as Q _ _; symmetry; exact Q
      end.
  - intros e I. apply sent_message_is_event_data in I. subst e.
    exact loads_dumps_test_order.
  - intros line echo I S.
    destruct (send_test_message w h) as [r new] eqn:H. cbn [snd] in I.
    run_script w H; injection H as <- <-;
      cbn [stdout flat_map app In] in I;
      repeat (destruct I as [I | I]; [subst line |]);
      try contradiction;
      first [ rewrite success_banner_is_no_echo in S; discriminate S
            | change (strip_prefix message_prefix
                        (message_prefix ++ dumps (Some 2%nat) test_order)
                      = Some echo) in S;
              rewrite strip_prefix_app in S; injection S as <-;
              exact loads_dumps_indent_test_order ].
  - intros R.
    destruct (send_test_message w h) as [r new] eqn:H. cbn [fst snd] in *.
    run_script w H; injection H as <- <-;
      first [discriminate R | reflexivity].
Qed.

Lemma C8_record_unchanged_witness :
  fst (send_test_message all_ok []) = inr tt
  /\ stdout (snd (send_test_message all_ok []))
     = [success_banner; message_prefix ++ dumps (Some 2%nat) test_order].
Proof.
  assert (R : fst (send_test_message all_ok []) = inr tt) by reflexivity.
  split; [exact R |].
  apply (C8_record_unchanged all_ok []). exact R.
Defined.

(** ** C7: failures and the exit status *)




(** The script as it stands, with its blank connection string, in a
    world whose client refuses that string: the first banner is printed,
    the error of the client ends the script, and nothing else happens;
    when that error is an ordinary exception the exit status is 1, or
    120 if the final flush fails. *)
Lemma main_refused_connection_string (w : World) (flushed : bool) (h : log)
      (e : exn) :
  answer w h (Print start_banner) = Returned ->
  answer w (h ++ [(Print start_banner, Returned)])
         (FromConnectionString (str "") (str "otel-events")) = Raised e ->
  main w h
  = (inl e, [(Print start_banner, Returned);
             (FromConnectionString (str "") (str "otel-events"), Raised e)])
  /\ stdout (snd (main w h)) = [start_banner]
  /\ send_attempts (snd (main w h)) = []
  /\ (ordinary e = true ->
      fst (python w flushed h) = Exited (if flushed then 1 else 120)).
Proof.
  intros P R.
  assert (E : main w h
              = (inl e, [(Print start_banner, Returned);
                         (FromConnectionString (str "") (str "otel-events"),
                          Raised e)])).
  { cbv beta iota zeta delta
      [main print asyncio_run send_test_message from_connection_string
       bind perform].
    rewrite P. cbv beta iota zeta. rewrite R. reflexivity. }
  unfold python. rewrite E. cbn [fst snd].
  repeat split.
  intros O. destruct e; try discriminate O. destruct flushed; reflexivity.
Qed.

Lemma main_refused_connection_string_witness :
  stdout (snd (main blank_refused [])) = [start_banner]
  /\ fst (python blank_refused true []) = Exited 1.
Proof.
  destruct (main_refused_connection_string
              blank_refused true [] (Exn "ValueError") eq_refl eq_refl)
    as (_ & O & _ & X).
  split; [exact O | exact (X eq_refl)].
Defined.

Lemma main_all_ok :
  fst (python all_ok true []) = Exited 0
  /\ stdout (snd (main all_ok [])) = full_console.
Proof. split; reflexivity. Qed.

(** ** C5: the order of the steps *)

(** C5, as stated, fails: in the world where everything succeeds the
    batch is transmitted, and the steps ran in the order of the source,
    which is not the order of the claim (the batch is created before the
    record is serialised, not after). *)
Lemma C5_claimed_order_counterexample :
  send_attempts (snd (send_test_message all_ok []))
  = [(str "otel-events", [event_data])]
  /\ steps_to_send (snd (send_test_message all_ok [])) = source_order
  /\ (steps_to_send (snd (send_test_message all_ok [])) = claimed_order
      -> False).
Proof.
  split; [reflexivity |]. split; [reflexivity |].
  intros Q.
  assert (S : steps_to_send (snd (send_test_message all_ok [])) = source_order)
    by reflexivity.
  rewrite S in Q. discriminate Q.
Qed.

(** C5, amended. Whenever the send operation reaches the transmission,
    its steps ran one after the other in this order: create an empty
    batch, serialise the fixed record to a JSON string, wrap that string
    as a single message, append exactly that message to the batch,
    transmit the batch; the batch transmitted therefore holds exactly
    one message. *)
Theorem C5_steps_in_source_order (w : World) (h : log)
        (p : EventHubProducerClient) (b : EventDataBatch) (o : outcome) :
  In (SendBatch p b, o) (snd (send_test_message w h)) ->
  (exists before after,
      snd (send_test_message w h) = before ++ pipeline o ++ after)
  /\ steps_to_send (snd (send_test_message w h)) = source_order
  /\ p = producer
  /\ events b = [event_data]
  /\ List.length (events b) = 1%nat.
Proof.
  destruct (send_test_message w h) as [r new] eqn:H. cbn [snd].
  intros I.
  run_script w H; injection H as <- <-; in_cases I;
    match goal with
    | Q : (SendBatch _ _, _) = (SendBatch p b, o) |- _ =>
        injection Q as Q1 Q2 Q3; subst p b o
    end;
    (split;
     [ match goal with
       | |- exists before after, ?l = _ =>
           exists (firstn 2 l), (skipn 7 l); reflexivity
       end
     | repeat split; reflexivity ]).
Qed.

Lemma C5_steps_in_source_order_witness :
  In (SendBatch producer {| events := [event_data] |}, Raised (Exn "EventHubError"))
     (snd (send_test_message send_refused []))
  /\ steps_to_send (snd (send_test_message send_refused [])) = source_order.
Proof.
  assert (I : In (SendBatch producer {| events := [event_data] |},
                  Raised (Exn "EventHubError"))
                 (snd (send_test_message send_refused []))).
  { do 6 right. left. reflexivity. }
  split; [exact I |].
  apply (C5_steps_in_source_order send_refused [] _ _ _ I).
Defined.

(* ===================================================================== *)
(** * Further properties of the script *)
(* ===================================================================== *)

(** ** What goes on the wire, in every world *)

(** Whatever the world does, a message handed to [send_batch] has the
    one-line JSON text of the record as its body, and since that text is
    ASCII its bytes on the wire are its characters: no run can send
    anything else. *)
Theorem sent_body_is_payload_text (w : World) (h : log) (e : EventData) :
  In e (sent_messages (snd (send_test_message w h))) ->
  body e = payload_text
  /\ wire_body e = Some payload_text
  /\ is_ascii (body e) = true
  /\ ~ In 10%N (body e).
Proof.
  intros I. apply sent_message_is_event_data in I. subst e.
  change (body event_data) with (dumps None test_order).
  unfold wire_body. change (body event_data) with (dumps None test_order).
  rewrite dumps_test_order.
  assert (A : is_ascii payload_text = true) by (vm_compute; reflexivity).
  split; [reflexivity |]. split; [apply utf8_encode_ascii, A |].
  split; [exact A |].
  intros N.
  assert (F : existsb (N.eqb 10) payload_text = false)
    by (vm_compute; reflexivity).
  assert (T : existsb (N.eqb 10) payload_text = true).
  { apply existsb_exists. exists 10%N. split; [exact N | reflexivity]. }
  rewrite F in T. discriminate T.
Qed.

Lemma sent_body_is_payload_text_witness :
  body event_data = payload_text /\ wire_body event_data = Some payload_text.
Proof.
  destruct (sent_body_is_payload_text all_ok [] event_data all_ok_sends)
    as (B & W & _).
  split; assumption.
Defined.

(** ** The console never reports what did not happen *)

(** If the success banner reached the console, the batch had been
    accepted before: exactly one message is delivered, to [otel-events].
    The banner is printed after [send_batch] has returned, never on a
    path where it raised or was not reached. *)
Theorem success_banner_means_delivered (w : World) (h : log) :
  In success_banner (stdout (snd (send_test_message w h))) ->
  delivered (snd (send_test_message w h)) = [(str "otel-events", event_data)].
Proof.
  destruct (send_test_message w h) as [r new] eqn:H. cbn [snd].
  intros I.
  run_script w H; injection H as <- <-;
    first [ reflexivity
          | cbn [stdout flat_map app In] in I; contradiction ].
Qed.

Lemma success_banner_means_delivered_witness :
  In success_banner (stdout (snd (send_test_message all_ok [])))
  /\ delivered (snd (send_test_message all_ok []))
     = [(str "otel-events", event_data)].
Proof.
  assert (I : In success_banner (stdout (snd (send_test_message all_ok []))))
    by (left; reflexivity).
  split; [exact I |].
  apply (success_banner_means_delivered all_ok [] I).
Defined.

(** Exit status 0 means the whole job was done, unless a call asked for
    it: if no call raised [SystemExit] and the process exits with status
    0, then one message was delivered to [otel-events], the client was
    released once and nothing is left open, no call raised, and the
    final flush succeeded. *)
Theorem exit_zero_means_delivered (w : World) (flushed : bool) (h : log) :
  (forall s, ~ In (SystemExit s) (failures (snd (main w h)))) ->
  fst (python w flushed h) = Exited 0 ->
  delivered (snd (main w h)) = [(str "otel-events", event_data)]
  /\ count_kind KAExit (snd (main w h)) = 1%nat
  /\ connection_open (snd (main w h)) = false
  /\ failures (snd (main w h)) = []
  /\ flushed = true.
Proof.
  unfold python.
  destruct (main w h) as [r new] eqn:H. cbn [fst snd].
  intros NS Z.
  run_script w H; injection H as <- <-;
    first
      [ (* the run that succeeds *)
        destruct flushed; [repeat split | discriminate Z]
      | (* a call raised: the status is that of the last exception *)
        exfalso;
        match type of Z with
        | finish (inl ?x) _ = _ => destruct x as [name | s |]
        end;
        [ destruct flushed; discriminate Z
        | apply (NS s); cbv [failures flat_map snd app In];
          repeat (first [left; reflexivity | right])
        | discriminate Z ] ].
Qed.

Lemma exit_zero_means_delivered_witness :
  fst (python all_ok true []) = Exited 0
  /\ delivered (snd (main all_ok [])) = [(str "otel-events", event_data)].
Proof.
  assert (Z : fst (python all_ok true []) = Exited 0) by reflexivity.
  split; [exact Z |].
  apply (exit_zero_means_delivered all_ok true []); [| exact Z].
  intros s [].
Defined.

(** ** Errors around the scoped client *)

(** The converse fails, and this is how: when every call returns except
    the release of the client, which raises [e], the message has been
    delivered and both lines of the send operation printed, yet [e] ends
    the script and the last banner is not printed; when [e] is an
    ordinary exception the exit status is 1, or 120 if the final flush
    fails as well. *)
Theorem release_error_after_delivery (w : World) (flushed : bool) (h : log)
        (e : exn) :
  (forall k c, kind_of c <> KAExit -> answer w k c = Returned) ->
  (forall k p pending, answer w k (AExit p pending) = Raised e) ->
  fst (main w h) = inl e
  /\ delivered (snd (main w h)) = [(str "otel-events", event_data)]
  /\ stdout (snd (main w h))
     = [start_banner; success_banner;
        message_prefix ++ dumps (Some 2%nat) test_order]
  /\ (ordinary e = true ->
      fst (python w flushed h) = Exited (if flushed then 1 else 120)).
Proof.
  intros O X. unfold python.
  destruct (main w h) as [r new] eqn:H. cbn [fst snd].
  run_script w H;
    repeat match goal with
      | A : answer w ?k (AExit ?p ?q) = _ |- _ =>
          rewrite (X k p q) in A;
          first [discriminate A | injection A as <-]
      | A : answer w ?k ?c = Raised _ |- _ =>
          rewrite (O k c) in A; [discriminate A | discriminate]
      end;
    injection H as <- <-; repeat split.
  intros Q. destruct e; try discriminate Q. destruct flushed; reflexivity.
Qed.

Lemma release_error_after_delivery_witness :
  fst (main (release_refused (Exn "OSError")) []) = inl (Exn "OSError")
  /\ delivered (snd (main (release_refused (Exn "OSError")) []))
     = [(str "otel-events", event_data)]
  /\ fst (python (release_refused (Exn "OSError")) true []) = Exited 1.
Proof.
  destruct (release_error_after_delivery
              (release_refused (Exn "OSError")) true [] (Exn "OSError"))
    as (R & D & _ & X).
  - intros k c K. destruct c; try reflexivity. elim K. reflexivity.
  - reflexivity.
  - split; [exact R |]. split; [exact D | exact (X eq_refl)].
Defined.

(** When [__aenter__] raises, the connection was not acquired and is not
    released: [__aexit__] is never called, the block does not start, and
    the error of [__aenter__] is the error of the operation. *)
Theorem enter_failure_skips_release (w : World) (h : log)
        (p : EventHubProducerClient) (e : exn) :
  In (AEnter p, Raised e) (snd (send_test_message w h)) ->
  send_test_message w h
  = (inl e, [ (FromConnectionString (str "") (str "otel-events"), Returned);
              (AEnter producer, Raised e) ])
  /\ count_kind KAExit (snd (send_test_message w h)) = 0%nat
  /\ count_kind KCreateBatch (snd (send_test_message w h)) = 0%nat.
Proof.
  destruct (send_test_message w h) as [r new] eqn:H. cbn [snd].
  intros I.
  run_script w H; injection H as <- <-; in_cases I;
    match goal with
    | Q : (AEnter _, Raised _) = (AEnter p, Raised e) |- _ =>
        injection Q as Q1 Q2; subst p e
    end;
    repeat split.
Qed.

Lemma enter_failure_skips_release_witness :
  In (AEnter producer, Raised (Exn "ConnectError"))
     (snd (send_test_message enter_refused []))
  /\ count_kind KAExit (snd (send_test_message enter_refused [])) = 0%nat.
Proof.
  assert (I : In (AEnter producer, Raised (Exn "ConnectError"))
                 (snd (send_test_message enter_refused [])))
    by (right; left; reflexivity).
  split; [exact I |].
  apply (enter_failure_skips_release enter_refused [] _ _ I).
Defined.

(** ** The world decides how far a run gets, not what it does *)

Ltac prefix_of_length :=
  first [ exists 0%nat; reflexivity | exists 1%nat; reflexivity
        | exists 2%nat; reflexivity | exists 3%nat; reflexivity
        | exists 4%nat; reflexivity | exists 5%nat; reflexivity
        | exists 6%nat; reflexivity | exists 7%nat; reflexivity
        | exists 8%nat; reflexivity | exists 9%nat; reflexivity
        | exists 10%nat; reflexivity ].


(** The console of the whole script is always an initial part of its four
    lines: the lines come in the order of the source, none twice, and a
    line is missing only if every later one is. *)
Theorem console_is_a_prefix (w : World) (h : log) :
  exists n, stdout (snd (main w h)) = firstn n full_console.
Proof.
  destruct (main w h) as [r new] eqn:H. cbn [snd].
  run_script w H; injection H as <- <-; prefix_of_length.
Qed.
